(** * The AI-Engineer MCP server ([server.py]): a shallow embedding

    The script defines one tool, [get_email_campaign_data], registers it
    with a FastMCP server object and, when run as a program, serves requests
    over stdio inside a [try]/[except] block.  The tool body is the single
    statement [pass]: it evaluates neither of its parameters, opens no file,
    logs nothing and falls off the end of the function, so the call returns
    Python's [None].

    Python code is embedded as computations in a small state-and-exception
    monad over a [world] that holds what the script could observe or change:
    the files on disk, the records emitted through [logging], and the paths
    opened for reading. *)

From Stdlib Require Import ZArith.
From stdpp Require Import base option list gmap strings.

Local Open Scope Z_scope.

(** ** Python values and exceptions *)

Module Py.

(** The values that can flow through the tool's parameters and result. *)
Inductive pyval : Type :=
| PyNone
| PyStr (s : string)
| PyInt (n : Z)
| PyBool (b : bool).

(** [isinstance(v, str)]. *)
Definition is_str (v : pyval) : bool :=
  match v with
  | PyStr _ => true
  | _ => false
  end.

(** The argument of [sys.exit] and of [SystemExit]: nothing or [None], an
    integer, or any other object (given by the text printed for it). *)
Inductive exit_code : Type :=
| ExitNone
| ExitInt (n : Z)
| ExitOther (text : string).

(** Exceptions, split along the two classes the script's [except] clauses
    name.  [PyException cls msg] is an instance of [Exception] (of subclass
    [cls]) whose [str()] is [msg]; [BaseOnly] is an instance of
    [BaseException] outside [Exception] other than the two listed
    (for example [GeneratorExit]). *)
Inductive pyexn : Type :=
| KeyboardInterrupt
| SystemExit (code : exit_code)
| BaseOnly (cls msg : string)
| PyException (cls msg : string).

(** [isinstance(e, KeyboardInterrupt)]. *)
Definition is_KeyboardInterrupt (e : pyexn) : bool :=
  match e with
  | KeyboardInterrupt => true
  | _ => false
  end.

(** [isinstance(e, Exception)]. *)
Definition is_Exception (e : pyexn) : bool :=
  match e with
  | PyException _ _ => true
  | _ => false
  end.

(** [str(e)], as interpolated by the f-string in the last handler.  Only
    instances of [Exception] reach that handler; the other classes are
    given the empty text, which nothing reads. *)
Definition str_exn (e : pyexn) : string :=
  match e with
  | KeyboardInterrupt => EmptyString
  | SystemExit c => EmptyString
  | BaseOnly _ m => m
  | PyException _ m => m
  end.

(** How a call ends: with a value, or with an exception in flight. *)
Inductive outcome (A : Type) : Type :=
| Returned (a : A)
| Raised (e : pyexn).
Arguments Returned {A} a.
Arguments Raised {A} e.

Definition is_raised {A} (o : outcome A) : bool :=
  match o with
  | Raised _ => true
  | Returned _ => false
  end.

End Py.
Export Py.

(** ** The backing data *)

(** Modelled from the spec: the schema of a campaign record.  The
    repository names the data file ([mock_data.json], in the tool's TODO
    list) but never defines or ships it; the fields below are the ones the
    specification's data model lists.  Numeric fields are kept as the
    decimal literals written in the file. *)
Record campaign : Type := Campaign {
  name : string;
  open_rate : string;
  conversion_rate : string;
  revenue : string;
  subject_line : string;
  subject_open_rate : string;
  audience : string
}.

(** What is stored under a path: text that does not parse as a record set,
    or a record set. *)
Inductive file_content : Type :=
| Malformed (raw : string)
| CampaignData (records : list campaign).

(** The path named in the tool's TODO list. *)
Definition data_path : string := "mock_data.json".

(** ** The world, and computations over it *)

Inductive log_level : Type := DEBUG | INFO | WARNING | ERROR | CRITICAL.

(** [logging]'s numeric levels. *)
Definition levelno (l : log_level) : Z :=
  match l with
  | DEBUG => 10
  | INFO => 20
  | WARNING => 30
  | ERROR => 40
  | CRITICAL => 50
  end.

Record world : Type := World {
  files : gmap string file_content;   (* the disk: path -> content *)
  log : list (log_level * string);    (* records emitted, oldest first *)
  reads : list string                 (* paths opened for reading, oldest first *)
}.

(** A Python computation: runs in a world, ends with an outcome, leaves a
    world. *)
Definition M (A : Type) : Type := world -> outcome A * world.

Definition ret {A} (a : A) : M A := fun w => (Returned a, w).

Definition raise {A} (e : pyexn) : M A := fun w => (Raised e, w).

Definition bind {A B} (m : M A) (k : A -> M B) : M B :=
  fun w =>
    match m w with
    | (Returned a, w') => k a w'
    | (Raised e, w') => (Raised e, w')
    end.

Notation "x <- m ;; k" := (bind m (fun x => k))
  (at level 100, m at next level, right associativity).
Notation "m ;;; k" := (bind m (fun _ => k))
  (at level 100, right associativity).

(** [try: body except C1: h1 except C2 as e: h2 ...]: the first clause
    whose class test accepts the exception runs; with no such clause the
    exception stays in flight. *)
Fixpoint select_clause {A} (clauses : list ((pyexn -> bool) * (pyexn -> M A)))
    (e : pyexn) : option (M A) :=
  match clauses with
  | [] => None
  | (accepts, handler) :: rest =>
      if accepts e then Some (handler e) else select_clause rest e
  end.

Definition try_except {A} (body : M A)
    (clauses : list ((pyexn -> bool) * (pyexn -> M A))) : M A :=
  fun w =>
    match body w with
    | (Returned a, w') => (Returned a, w')
    | (Raised e, w') =>
        match select_clause clauses e with
        | Some h => h w'
        | None => (Raised e, w')
        end
    end.

(** ** The runtime services the script imports *)

Module Runtime.

(** [logging.basicConfig(level=logging.INFO)] (line 17): the threshold of
    the root logger, which [logger] inherits. *)
Definition configured_level : log_level := INFO.

Definition emit (l : log_level) (msg : string) : M pyval :=
  fun w =>
    if bool_decide (levelno configured_level <= levelno l)
    then (Returned PyNone,
          {| files := files w; log := log w ++ [(l, msg)]; reads := reads w |})
    else (Returned PyNone, w).

(** [logger.info(msg)] and [logger.error(msg)]. *)
Definition logger_info (msg : string) : M pyval := emit INFO msg.
Definition logger_error (msg : string) : M pyval := emit ERROR msg.

(** [sys.exit(code)] with an integer argument raises [SystemExit(code)]. *)
Definition sys_exit (code : Z) : M pyval := raise (SystemExit (ExitInt code)).

(** [open(path).read()]: records the access, and raises
    [FileNotFoundError] when the path is absent.  The script imports
    [json] and [Path] for this purpose; the tool body never reaches it. *)
Definition open_read (path : string) : M file_content :=
  fun w =>
    let w' := {| files := files w; log := log w; reads := reads w ++ [path] |} in
    match files w !! path with
    | Some c => (Returned c, w')
    | None => (Raised (PyException "FileNotFoundError" path), w')
    end.

(** The status of a process that ends through [SystemExit], as CPython
    computes it on a POSIX system with a 64-bit C [long]: 0 for no code or
    [None]; for an integer that fits a [long], its low 8 bits; 255 for an
    integer that does not fit (the conversion fails and yields -1); 1 for
    any other object, which is printed to stderr. *)
Definition exit_code_status (c : exit_code) : Z :=
  match c with
  | ExitNone => 0
  | ExitInt n =>
      if bool_decide (- 2 ^ 63 <= n < 2 ^ 63) then n mod 256 else 255
  | ExitOther _ => 1
  end.

(** The status with which the interpreter ends once the script's last
    statement has run or an exception has reached the top level:
    0 after normal completion, the status of the code of a [SystemExit],
    and a non-zero status for any other exception (130 is what a POSIX
    shell reports for an uncaught [KeyboardInterrupt], 1 follows the
    traceback of any other exception). *)
Definition exit_status {A} (o : outcome A) : Z :=
  match o with
  | Returned _ => 0
  | Raised (SystemExit c) => exit_code_status c
  | Raised KeyboardInterrupt => 130
  | Raised _ => 1
  end.

End Runtime.
Export Runtime.

(** ** The tool (lines 23-47) *)

(** [def get_email_campaign_data(query_type: str = "all",
                                 campaign_name: str = None) -> str:
        (docstring)
        # TODO ...
        pass]

    The docstring is an expression statement, the comments are not code,
    and [pass] does nothing; control reaches the end of the body, where a
    Python function returns [None]. *)
Definition get_email_campaign_data (query_type campaign_name : pyval) : M pyval :=
  ret PyNone.

(** The defaults declared in the signature. *)
Definition query_type_default : pyval := PyStr "all".
Definition campaign_name_default : pyval := PyNone.

(** Binding of a call's arguments to the two parameters: an argument that
    the caller omits ([None] here) takes the declared default. *)
Definition bind_args (query_type campaign_name : option pyval) : pyval * pyval :=
  (default query_type_default query_type,
   default campaign_name_default campaign_name).

(** A call of the tool in which each argument is supplied or omitted. *)
Definition call_tool (query_type campaign_name : option pyval) : M pyval :=
  let '(qt, cn) := bind_args query_type campaign_name in
  get_email_campaign_data qt cn.

(** The selectors listed in the docstring. *)
Definition recognized_query_types : list string :=
  ["all"; "performance"; "subjects"; "metrics"]%string.

(** ** The program entry (lines 49-58) *)

(** [mcp.run(transport="stdio")] belongs to the FastMCP library; the
    script's block is embedded over an arbitrary computation [serve]
    standing for it. *)
Definition main (serve : M pyval) : M pyval :=
  try_except
    (logger_info "Starting AI Engineer MCP Server..." ;;;
     serve)
    [ (is_KeyboardInterrupt,
       fun _ => logger_info "Server stopped by user");
      (is_Exception,
       fun e => logger_error ("Server error: " +:+ str_exn e) ;;;
                sys_exit 1) ].

(** Running the script as a program: the block above, then the
    interpreter's exit. *)
Definition run_script (serve : M pyval) (w : world) : Z * world :=
  let '(o, w') := main serve w in (exit_status o, w').

(** ** Observations on results *)

(** Python's [needle in text]. *)
Fixpoint occurs (needle text : string) : bool :=
  String.prefix needle text ||
  match text with
  | EmptyString => false
  | String _ rest => occurs needle rest
  end.

(** Whether a call's result is text in which [needle] occurs. *)
Definition output_contains (needle : string) (o : outcome pyval) : bool :=
  match o with
  | Returned (PyStr t) => occurs needle t
  | _ => false
  end.

(** Whether a call ended by returning a text string. *)
Definition returns_text (o : outcome pyval) : bool :=
  match o with
  | Returned v => is_str v
  | Raised _ => false
  end.

(** The record set held by the backing file, if there is one. *)
Definition source_records (w : world) : option (list campaign) :=
  match files w !! data_path with
  | Some (CampaignData rs) => Some rs
  | _ => None
  end.

(** The backing file is missing or does not parse. *)
Definition source_unavailable (w : world) : bool :=
  match files w !! data_path with
  | Some (CampaignData _) => false
  | _ => true
  end.

(** Some record of [rs] carries the name [n]. *)
Definition has_campaign (n : string) (rs : list campaign) : bool :=
  existsb (fun r => String.eqb (name r) n) rs.

(** An error-shaped result: an exception, or a text that the predicate
    [error_text] accepts as an error message or an explicit "no data"
    answer.  A value that is not text is neither. *)
Definition error_shaped (error_text : string -> bool) (o : outcome pyval) : bool :=
  match o with
  | Raised _ => true
  | Returned (PyStr t) => error_text t
  | Returned _ => false
  end.

(** A DataUnavailable report of a call that started in [w]: the call ended
    with an error-shaped result and emitted at least one log record. *)
Definition data_unavailable_reported (error_text : string -> bool) (w : world)
    (r : outcome pyval * world) : bool :=
  error_shaped error_text r.1 &&
  bool_decide (length (log w) < length (log r.2))%nat.

(** Two calls with the same arguments, one after the other. *)
Definition call_twice (query_type campaign_name : option pyval) : M (pyval * pyval) :=
  first <- call_tool query_type campaign_name ;;
  second <- call_tool query_type campaign_name ;;
  ret (first, second).

(** The data of a record: the values of its fields. *)
Definition campaign_data (r : campaign) : list string :=
  [name r; open_rate r; conversion_rate r; revenue r;
   subject_line r; subject_open_rate r; audience r].

(** The data present in the backing file. *)
Definition source_data (w : world) : list string :=
  match source_records w with
  | Some rs => concat (map campaign_data rs)
  | None => []
  end.

(** The data appearing in a response, for a given way [data_of_text] of
    reading data off a text block. *)
Definition response_data (data_of_text : string -> list string)
    (o : outcome pyval) : list string :=
  match o with
  | Returned (PyStr t) => data_of_text t
  | _ => []
  end.

(** ** Sessions *)

(** The world in which serving starts: the one left by the block's first
    statement, [logger.info("Starting AI Engineer MCP Server...")]. *)
Definition started (w : world) : world :=
  (logger_info "Starting AI Engineer MCP Server..." w).2.

(** A run of calls of the tool, in order, each with its own arguments
    supplied or omitted; the results are collected in call order and the
    first exception, if any, ends the run. *)
Fixpoint call_many (requests : list (option pyval * option pyval)) : M (list pyval) :=
  match requests with
  | [] => ret []
  | (query_type, campaign_name) :: rest =>
      v <- call_tool query_type campaign_name ;;
      vs <- call_many rest ;;
      ret (v :: vs)
  end.

(** What the block itself logs once serving has ended with [o]: the
    record of the clause that accepts the exception, if any. *)
Definition closing_records (o : outcome pyval) : list (log_level * string) :=
  match o with
  | Raised KeyboardInterrupt => [(INFO, "Server stopped by user"%string)]
  | Raised (PyException cls msg) =>
      [(ERROR, "Server error: " +:+ str_exn (PyException cls msg))]
  | _ => []
  end.

(** ** Sample worlds *)

Definition spring_sale : campaign :=
  {| name := "Spring Sale"; open_rate := "0.42"; conversion_rate := "0.05";
     revenue := "12500.00"; subject_line := "Fresh deals for spring";
     subject_open_rate := "0.40"; audience := "returning customers" |}.

Definition empty_world : world :=
  {| files := ∅; log := []; reads := [] |}.

Definition sample_world : world :=
  {| files := {[ data_path := CampaignData [spring_sale] ]}; log := []; reads := [] |}.

Definition malformed_world : world :=
  {| files := {[ data_path := Malformed "{ not json" ]}; log := []; reads := [] |}.

(** A fault raised by serving that is not an instance of [Exception]:
    [asyncio.CancelledError] derives from [BaseException]. *)
Definition cancelled : pyexn := BaseOnly "CancelledError" "serving was cancelled".

(** The sample world after earlier activity: same disk, one record logged. *)
Definition later_world : world :=
  {| files := files sample_world;
     log := [(INFO, "Starting AI Engineer MCP Server...")];
     reads := [] |}.

(** ** Basic facts *)

Lemma tool_body (query_type campaign_name : pyval) (w : world) :
  get_email_campaign_data query_type campaign_name w = (Returned PyNone, w).
Proof. reflexivity. Qed.

Lemma call_tool_body (query_type campaign_name : option pyval) (w : world) :
  call_tool query_type campaign_name w = (Returned PyNone, w).
Proof. reflexivity. Qed.

Lemma open_read_recorded (path : string) (w : world) :
  reads (open_read path w).2 = reads w ++ [path].
Proof. unfold open_read. by destruct (files w !! path). Qed.

Lemma emit_info (msg : string) (w : world) :
  logger_info msg w =
  (Returned PyNone,
   {| files := files w; log := log w ++ [(INFO, msg)]; reads := reads w |}).
Proof. reflexivity. Qed.

Lemma emit_error (msg : string) (w : world) :
  logger_error msg w =
  (Returned PyNone,
   {| files := files w; log := log w ++ [(ERROR, msg)]; reads := reads w |}).
Proof. reflexivity. Qed.

Lemma run_script_interrupt (serve : M pyval) (w w1 : world) :
  serve (logger_info "Starting AI Engineer MCP Server..." w).2
    = (Raised KeyboardInterrupt, w1) ->
  run_script serve w =
  (0, {| files := files w1;
         log := log w1 ++ [(INFO, "Server stopped by user")];
         reads := reads w1 |}).
Proof.
  intros Hserve. unfold run_script, main, try_except, bind.
  rewrite emit_info. rewrite emit_info in Hserve. simpl in Hserve.
  rewrite Hserve. reflexivity.
Qed.

Lemma run_script_exception (serve : M pyval) (e : pyexn) (w w1 : world) :
  is_Exception e = true ->
  serve (logger_info "Starting AI Engineer MCP Server..." w).2
    = (Raised e, w1) ->
  run_script serve w =
  (1, {| files := files w1;
         log := log w1 ++ [(ERROR, "Server error: " +:+ str_exn e)];
         reads := reads w1 |}).
Proof.
  intros Hcls Hserve. unfold run_script, main, try_except, bind.
  rewrite emit_info. rewrite emit_info in Hserve. simpl in Hserve.
  rewrite Hserve. destruct e; try discriminate Hcls. reflexivity.
Qed.

(** An exception outside [Exception] and [KeyboardInterrupt] matches
    neither clause: nothing more is logged and the exception reaches the top
    level (a [SystemExit] then ends the process with its own code). *)
Lemma run_script_unlisted (serve : M pyval) (e : pyexn) (w w1 : world) :
  is_KeyboardInterrupt e = false ->
  is_Exception e = false ->
  serve (logger_info "Starting AI Engineer MCP Server..." w).2
    = (Raised e, w1) ->
  run_script serve w = (exit_status (@Raised pyval e), w1).
Proof.
  intros Hki Hex Hserve. unfold run_script, main, try_except, bind.
  rewrite emit_info. rewrite emit_info in Hserve. simpl in Hserve.
  rewrite Hserve. destruct e; try discriminate; reflexivity.
Qed.

(** ** The tool's result *)

(** C1: a call of the tool does not return a text string.  Whatever the
    arguments (the four recognized selectors included, the name given or
    omitted) and whatever the world, the result is not a [str]; with the
    selector ["all"] and no name on the sample data the call returns [None].
    The signature's annotation [-> str] and the docstring promise text; the
    body [pass] delivers none. *)
Theorem C1_result_is_not_text :
  (forall (query_type campaign_name : option pyval) (w : world),
      returns_text (call_tool query_type campaign_name w).1 = false) /\
  Forall (fun q => (call_tool (Some (PyStr q)) None sample_world).1 = Returned PyNone)
         recognized_query_types.
Proof.
  split.
  - intros qt cn w. by rewrite call_tool_body.
  - unfold recognized_query_types. repeat constructor.
Qed.

(** C2: a name that matches no record is not answered with a NotFound
    shape.  On the sample data, which holds the single record "Spring Sale",
    the call naming "Unknown" ends as an ordinary return of [None]; and for
    every selector, name and world the result is not error-shaped, however
    freely a text may count as a "no data" answer.  The docstring and item 7
    of the TODO list promise handling of [campaign_name]; the body [pass]
    never looks at it. *)
Theorem C2_unmatched_name_gives_None :
  source_records sample_world = Some [spring_sale] /\
  has_campaign "Unknown" [spring_sale] = false /\
  (call_tool (Some (PyStr "performance")) (Some (PyStr "Unknown")) sample_world).1
    = Returned PyNone /\
  forall (no_data_text : string -> bool) (query_type : option pyval) (n : string)
         (w : world),
    error_shaped no_data_text (call_tool query_type (Some (PyStr n)) w).1 = false.
Proof.
  split; [reflexivity |]. split; [reflexivity |]. split; [reflexivity |].
  intros no_data_text qt n w. by rewrite call_tool_body.
Qed.

(** C3: a missing or malformed backing file is not reported.  With no file
    on disk, and with a file that does not parse, the call ends as an
    ordinary return of [None], emits no log record and opens no file; and in
    every world no call amounts to a DataUnavailable report, however freely
    a text may count as an error message.  Item 1 of the TODO list promises
    that the file is loaded and parsed; the body [pass] never opens it. *)
Theorem C3_unavailable_source_gives_None :
  source_unavailable empty_world = true /\
  call_tool None None empty_world = (Returned PyNone, empty_world) /\
  source_unavailable malformed_world = true /\
  call_tool None None malformed_world = (Returned PyNone, malformed_world) /\
  forall (error_text : string -> bool) (query_type campaign_name : option pyval)
         (w : world),
    data_unavailable_reported error_text w (call_tool query_type campaign_name w)
      = false.
Proof.
  split; [reflexivity |]. split; [reflexivity |].
  split; [reflexivity |]. split; [reflexivity |].
  intros error_text qt cn w. by rewrite call_tool_body.
Qed.

(** C4: for every record of the source set and every name argument, the
    output for the selector ["performance"] does not contain the record's
    subject line, and the output for ["subjects"] does not contain its
    revenue figure. *)
Theorem C4_projection_excludes (w : world) (rs : list campaign) (r : campaign)
    (campaign_name : option pyval) :
  source_records w = Some rs ->
  r ∈ rs ->
  output_contains (subject_line r)
    (call_tool (Some (PyStr "performance")) campaign_name w).1 = false /\
  output_contains (revenue r)
    (call_tool (Some (PyStr "subjects")) campaign_name w).1 = false.
Proof.
  intros _ _. by rewrite !call_tool_body.
Qed.

Lemma C4_projection_witness :
  output_contains "Fresh deals for spring"
    (call_tool (Some (PyStr "performance")) (Some (PyStr "Spring Sale")) sample_world).1
    = false /\
  output_contains "12500.00"
    (call_tool (Some (PyStr "subjects")) (Some (PyStr "Spring Sale")) sample_world).1
    = false.
Proof.
  apply (C4_projection_excludes sample_world [spring_sale] spring_sale
           (Some (PyStr "Spring Sale"))).
  - reflexivity.
  - apply list_elem_of_here.
Defined.

(** C5: whatever way data is read off a text block, every datum appearing
    in the response of a call is a datum of the backing file; the response
    carries no datum at all. *)
Theorem C5_response_within_source (data_of_text : string -> list string)
    (w : world) (query_type campaign_name : option pyval) :
  response_data data_of_text (call_tool query_type campaign_name w).1 ⊆ source_data w /\
  response_data data_of_text (call_tool query_type campaign_name w).1 = [].
Proof.
  rewrite call_tool_body. simpl. split; [apply list_subseteq_nil | reflexivity].
Qed.

(** C6: two calls with the same arguments against the same disk give the
    same output, whatever else differs between the two worlds; made one
    after the other, the two calls return the same value and leave the
    world unchanged. *)
Theorem C6_repeatable (query_type campaign_name : option pyval) (w1 w2 : world) :
  files w1 = files w2 ->
  (call_tool query_type campaign_name w1).1 = (call_tool query_type campaign_name w2).1 /\
  exists v : pyval, call_twice query_type campaign_name w1 = (Returned (v, v), w1).
Proof.
  intros _. split; [by rewrite !call_tool_body |].
  exists PyNone. reflexivity.
Qed.

Lemma C6_repeatable_witness :
  files sample_world = files later_world /\
  (call_tool (Some (PyStr "subjects")) None sample_world).1
    = (call_tool (Some (PyStr "subjects")) None later_world).1.
Proof.
  split; [reflexivity |].
  exact (proj1 (C6_repeatable (Some (PyStr "subjects")) None
                  sample_world later_world eq_refl)).
Defined.

(** C7: omitting [query_type] binds the parameter to ["all"], so the call
    is the one with [query_type="all"]; omitting [campaign_name] binds it to
    [None], the absent name. *)
Theorem C7_defaults (query_type campaign_name : option pyval) (w : world) :
  bind_args None campaign_name = bind_args (Some (PyStr "all")) campaign_name /\
  call_tool None campaign_name w = call_tool (Some (PyStr "all")) campaign_name w /\
  (bind_args query_type None).2 = PyNone /\
  bind_args query_type None = bind_args query_type (Some PyNone) /\
  bind_args None None = (PyStr "all", PyNone).
Proof. repeat split. Qed.

(** ** The program entry *)

(** C8, as stated, fails: a fault of serving that is not an instance of
    [Exception] matches neither clause.  The process still ends with a
    non-zero status, but the script logs nothing about the fault: the log
    holds the start-up record alone. *)
Lemma C8_counterexample :
  is_KeyboardInterrupt cancelled = false /\
  is_Exception cancelled = false /\
  (run_script (raise cancelled) empty_world).1 = 1 /\
  log (run_script (raise cancelled) empty_world).2
    = [(INFO, "Starting AI Engineer MCP Server..."%string)].
Proof. repeat split; reflexivity. Qed.

(** C8, amended: when serving is stopped by a [KeyboardInterrupt], the script logs
    "Server stopped by user" at level INFO and the process ends with status
    0; when serving fails with any [Exception], the script logs
    "Server error: ..." with the exception's text at level ERROR and the
    process ends with status 1, which is not 0. *)
Theorem C8_exit_status (serve : M pyval) (w w1 : world) :
  (serve (logger_info "Starting AI Engineer MCP Server..." w).2
     = (Raised KeyboardInterrupt, w1) ->
   (run_script serve w).1 = 0 /\
   log (run_script serve w).2 = log w1 ++ [(INFO, "Server stopped by user"%string)]) /\
  (forall e : pyexn,
     is_Exception e = true ->
     serve (logger_info "Starting AI Engineer MCP Server..." w).2 = (Raised e, w1) ->
     (run_script serve w).1 = 1 /\
     (run_script serve w).1 <> 0 /\
     log (run_script serve w).2 = log w1 ++ [(ERROR, "Server error: " +:+ str_exn e)]).
Proof.
  split.
  - intros Hserve. by rewrite (run_script_interrupt _ _ _ Hserve).
  - intros e Hcls Hserve. by rewrite (run_script_exception _ _ _ _ Hcls Hserve).
Qed.

Lemma C8_exit_status_witness :
  (run_script (raise KeyboardInterrupt) empty_world).1 = 0 /\
  (run_script (raise (PyException "RuntimeError" "stream closed")) empty_world).1 = 1.
Proof.
  split.
  - exact (proj1 (proj1 (C8_exit_status (raise KeyboardInterrupt) empty_world _)
                    eq_refl)).
  - exact (proj1 (proj2 (C8_exit_status
                           (raise (PyException "RuntimeError" "stream closed"))
                           empty_world _)
                    (PyException "RuntimeError" "stream closed") eq_refl eq_refl)).
Defined.

(** ** Independence from the arguments, and absence of effects *)

(** C9: any two calls of the tool, whatever their two pairs of arguments,
    give the same result in the same world. *)
Theorem C9_noninterference (query_type1 campaign_name1 query_type2 campaign_name2 : pyval)
    (w : world) :
  get_email_campaign_data query_type1 campaign_name1 w
    = get_email_campaign_data query_type2 campaign_name2 w.
Proof. reflexivity. Qed.

(** C10: for every pair of arguments, recognized or not, the tool returns
    normally: no exception is raised, no file is opened, nothing is logged
    and the world is left as it was. *)
Theorem C10_no_exception_no_io (query_type campaign_name : pyval) (w : world) :
  let r := get_email_campaign_data query_type campaign_name w in
  r = (Returned PyNone, w) /\
  is_raised r.1 = false /\
  reads r.2 = reads w /\
  log r.2 = log w /\
  files r.2 = files w.
Proof. repeat split. Qed.

(** ** Further properties of the program entry *)

(** The block, case by case on how serving ended: the disk and the record
    of opened paths are those serving left, and the log is the one serving
    left followed by the records of the accepting clause. *)
Lemma run_script_frame (serve : M pyval) (w : world) :
  let end_of_serving := serve (started w) in
  let final := (run_script serve w).2 in
  files final = files end_of_serving.2 /\
  reads final = reads end_of_serving.2 /\
  log final = log end_of_serving.2 ++ closing_records end_of_serving.1.
Proof.
  unfold run_script, main, try_except, bind, started. rewrite emit_info. simpl.
  destruct (serve _) as [[v | e] w1]; simpl.
  - by rewrite app_nil_r.
  - destruct e; simpl; by rewrite ?app_nil_r.
Qed.

Lemma started_world (w : world) :
  started w =
  {| files := files w;
     log := log w ++ [(INFO, "Starting AI Engineer MCP Server..."%string)];
     reads := reads w |}.
Proof. reflexivity. Qed.

Lemma run_script_returns (serve : M pyval) (v : pyval) (w w1 : world) :
  serve (started w) = (Returned v, w1) -> run_script serve w = (0, w1).
Proof.
  intros Hserve. unfold run_script, main, try_except, bind.
  rewrite emit_info. unfold started in Hserve. rewrite emit_info in Hserve.
  simpl in Hserve. by rewrite Hserve.
Qed.

Lemma call_many_body (requests : list (option pyval * option pyval)) (w : world) :
  call_many requests w = (Returned (replicate (length requests) PyNone), w).
Proof.
  induction requests as [| [qt cn] rest IH]; [reflexivity |].
  simpl. unfold bind. rewrite call_tool_body, IH. reflexivity.
Qed.

(** X1: neither a [KeyboardInterrupt] nor an [Exception] leaves the block:
    an exception that reaches the top level is an instance of neither
    class (the [SystemExit] of [sys.exit(1)], or one that serving raised
    outside both classes). *)
Theorem X1_block_contains_faults (serve : M pyval) (w : world) (e : pyexn) :
  (main serve w).1 = Raised e ->
  is_KeyboardInterrupt e = false /\ is_Exception e = false.
Proof.
  unfold main, try_except, bind. rewrite emit_info. simpl.
  destruct (serve _) as [[v | e'] w1]; simpl; [discriminate |].
  destruct e'; simpl; intros H; inversion H; subst; by split.
Qed.

Lemma X1_block_contains_faults_witness :
  (main (raise (PyException "ValueError" "bad frame")) empty_world).1
    = Raised (SystemExit (ExitInt 1)) /\
  is_KeyboardInterrupt (SystemExit (ExitInt 1)) = false /\
  is_Exception (SystemExit (ExitInt 1)) = false.
Proof.
  split; [reflexivity |].
  exact (X1_block_contains_faults (raise (PyException "ValueError" "bad frame"))
           empty_world (SystemExit (ExitInt 1)) eq_refl).
Defined.

(** X2: the process ends with status 0 exactly when serving returned, was
    stopped by a [KeyboardInterrupt], or raised a [SystemExit] whose code
    has status 0 (no code, or an integer that fits a C [long] and is a
    multiple of 256, such as 0 or 256); every other end of serving, any
    [Exception] included, gives a non-zero status. *)
Theorem X2_status_zero_iff (serve : M pyval) (w : world) :
  (run_script serve w).1 = 0 <->
  match (serve (started w)).1 with
  | Returned _ => True
  | Raised KeyboardInterrupt => True
  | Raised (SystemExit ExitNone) => True
  | Raised (SystemExit (ExitInt n)) => - 2 ^ 63 <= n < 2 ^ 63 /\ (256 | n)
  | Raised _ => False
  end.
Proof.
  unfold run_script, main, try_except, bind, started. rewrite emit_info. simpl.
  destruct (serve _) as [[v | e] w1]; simpl; [done |].
  destruct e as [| [| n | t] | |]; simpl; try done.
  case_bool_decide as Hfit.
  - rewrite Z.mod_divide by lia.
    split; [intros Hdiv; by split | intros [_ Hdiv]; exact Hdiv].
  - split; [discriminate | intros [Hin _]; contradiction].
Qed.

(** X3: when serving returns, or ends through [SystemExit], the script
    adds nothing: no record is logged after serving and the world is the
    one serving left, so an exit with a non-zero code is not reported as a
    server error.  The status is 0 after a return and the status of the
    code after an exit, which for an integer from 0 to 255 is that
    integer. *)
Theorem X3_return_and_exit_pass_through (serve : M pyval) (w w1 : world) :
  (forall v : pyval,
     serve (started w) = (Returned v, w1) -> run_script serve w = (0, w1)) /\
  (forall c : exit_code,
     serve (started w) = (Raised (SystemExit c), w1) ->
     run_script serve w = (exit_code_status c, w1)) /\
  (forall n : Z,
     0 <= n <= 255 ->
     serve (started w) = (Raised (SystemExit (ExitInt n)), w1) ->
     run_script serve w = (n, w1)).
Proof.
  split; [| split].
  - intros v Hserve. exact (run_script_returns serve v w w1 Hserve).
  - intros c Hserve. by rewrite (run_script_unlisted serve (SystemExit c) w w1).
  - intros n Hn Hserve.
    rewrite (run_script_unlisted serve (SystemExit (ExitInt n)) w w1) by done.
    simpl. rewrite bool_decide_eq_true_2 by lia. by rewrite Z.mod_small by lia.
Qed.

Lemma X3_return_and_exit_witness :
  run_script (ret (PyInt 7)) empty_world = (0, started empty_world) /\
  run_script (sys_exit 256) empty_world = (0, started empty_world) /\
  run_script (sys_exit 3) empty_world = (3, started empty_world).
Proof.
  split; [| split].
  - exact (proj1 (X3_return_and_exit_pass_through (ret (PyInt 7)) empty_world _)
             (PyInt 7) eq_refl).
  - exact (proj1 (proj2 (X3_return_and_exit_pass_through (sys_exit 256) empty_world _))
             (ExitInt 256) eq_refl).
  - refine (proj2 (proj2 (X3_return_and_exit_pass_through (sys_exit 3) empty_world _))
             3 _ eq_refl).
    split; discriminate.
Defined.

(** X4: if serving only ever appends to the log, the log at the end of the
    process starts with the log at its start followed by the record
    "Starting AI Engineer MCP Server..." at level INFO: the start-up record
    comes before anything serving or the handlers log, and nothing logged
    earlier is lost. *)
Theorem X4_startup_record_first (serve : M pyval) (w : world) :
  (forall u : world, log u `prefix_of` log (serve u).2) ->
  (log w ++ [(INFO, "Starting AI Engineer MCP Server..."%string)])
    `prefix_of` log (run_script serve w).2.
Proof.
  intros Happend.
  destruct (run_script_frame serve w) as (_ & _ & Hlog). rewrite Hlog.
  transitivity (log (serve (started w)).2).
  - exact (Happend (started w)).
  - by apply prefix_app_r.
Qed.

Lemma X4_startup_record_witness :
  [(INFO, "Starting AI Engineer MCP Server..."%string)]
    `prefix_of` log (run_script (logger_info "ready" ;;; raise KeyboardInterrupt)
                       empty_world).2.
Proof.
  apply (X4_startup_record_first
           (logger_info "ready" ;;; raise KeyboardInterrupt) empty_world).
  intros u. unfold bind. rewrite emit_info. simpl. by apply prefix_app_r.
Defined.

(** X5: apart from logging, the script does nothing of its own around
    serving: serving starts on the disk the process started with, no path
    has been opened before it, and after it the script leaves the disk
    and the record of opened paths as serving left them and appends at most
    one log record. *)
Theorem X5_script_only_logs (serve : M pyval) (w : world) :
  files (started w) = files w /\
  reads (started w) = reads w /\
  files (run_script serve w).2 = files (serve (started w)).2 /\
  reads (run_script serve w).2 = reads (serve (started w)).2 /\
  exists closing : list (log_level * string),
    log (run_script serve w).2 = log (serve (started w)).2 ++ closing /\
    (length closing <= 1)%nat.
Proof.
  destruct (run_script_frame serve w) as (Hfiles & Hreads & Hlog).
  repeat split; try assumption.
  exists (closing_records (serve (started w)).1). split; [exact Hlog |].
  destruct (serve (started w)).1 as [v | e]; simpl; [lia |].
  destruct e; simpl; lia.
Qed.

(** ** Further properties of the tool *)

(** X6: a run of any number of calls of the tool, whatever their
    arguments, returns one [None] per call and leaves the world as it was:
    no call can influence a later one. *)
Theorem X6_calls_compose (requests : list (option pyval * option pyval)) (w : world) :
  call_many requests w = (Returned (replicate (length requests) PyNone), w) /\
  forall more : list (option pyval * option pyval),
    (call_many (requests ++ more) w).1
      = Returned (replicate (length requests) PyNone
                  ++ replicate (length more) PyNone).
Proof.
  split; [apply call_many_body |].
  intros more. rewrite call_many_body, length_app. simpl.
  by rewrite replicate_add.
Qed.
